(** * pkg/client/client.go: the aggregate gRPC client of the SDK

    A shallow embedding of [client.go]: the option functions [WithAuth] and
    [WithGRPCDialOptions], the constructor [New], its helper [newConnection]
    and the fourteen accessors of [Client].

    Calls that leave the file (the caller's token-source initializer,
    [transportCredentials], [grpc.DialContext], [TokenSource.Token]) are
    nodes of a program tree; an environment answers them and the run keeps
    the list of calls made, so that statements such as "the dial is never
    reached" are statements about that list. *)

From stdpp Require Import base strings gmap list.

(** ** Values the client only passes around *)

(** Go types of other packages whose values [client.go] never inspects.
    Each type holds the non-nil values; a possibly-nil value is an
    [option]. *)
Class Externals : Type := {
  context : Type;                 (* context.Context *)
  error : Type;                   (* non-nil values of the error interface *)
  TokenSource : Type;             (* oauth2.TokenSource *)
  TokenSourceInitializer : Type;  (* func(ctx, issuer) (oauth2.TokenSource, error) *)
  TransportCredentials : Type;    (* credentials.TransportCredentials *)
  ClientConn : Type;              (* grpc.ClientConn *)
  CallerDialOption : Type;        (* a grpc.DialOption built by any other grpc.WithXxx *)
}.

(** Modelled from the spec: the endpoint type [zitadel.Zitadel] of package
    [pkg/zitadel], of which [client.go] only calls the four getters
    [Origin()], [Domain()], [IsTLS()] and [Host()].  The spec's Target
    Endpoint is immutable and "identifies the remote platform instance:
    host, whether TLS is required, and the externally visible origin", and
    transport security is resolved from "the endpoint's TLS flag and
    domain"; the record holds what each getter returns. *)
Record Zitadel : Type := {
  Domain : string;
  IsTLS : bool;
  Host : string;
  Origin : string;
}.

(** The remote services, one per field of [Client]. *)
Inductive Service : Type :=
| system | admin | management
| userV2Beta | userV2
| auth
| settingsV2Beta | settingsV2
| sessionV2Beta | sessionV2
| orgV2Beta | orgV2
| oidcV2Beta | oidcV2.

Section Model.
Context `{Externals}.

(** ** Data *)

(** [cred] as [newConnection] builds it: [&cred{tls: ..., tokenSource: ...}]. *)
Record cred : Type := {
  tls : bool;
  tokenSource : option TokenSource;
}.

(** [grpc.DialOption]: the two that [newConnection] builds itself, and
    whatever else a caller hands to [WithGRPCDialOptions]. *)
Inductive DialOption : Type :=
| WithTransportCredentials (creds : option TransportCredentials)
| WithPerRPCCredentials (creds : cred)
| CallerOption (o : CallerDialOption).

Record clientOptions : Type := {
  initTokenSource : option TokenSourceInitializer;
  grpcDialOptions : list DialOption;
}.

(** [type Option func(c)] with [c] a pointer to [clientOptions]: the pointee
    before the call, the pointee after it. *)
Definition Option : Type := clientOptions → clientOptions.

(** Modelled from the spec: the generated stub types and their constructors
    [NewXxxServiceClient] (packages [pkg/client/zitadel/...]).  The spec has
    "one per remote service, each taking the shared connection and returning
    a typed stub", and "each service stub holds a non-owning reference to
    that connection".  A stub is the record of that reference; a value of the
    stub's interface type is [None] when nil. *)
Record stub (s : Service) : Type := { cc : option ClientConn }.
Arguments cc {s} _.

Definition ServiceClient (s : Service) : Type := option (stub s).

Definition NewServiceClient (s : Service) (conn : option ClientConn)
  : ServiceClient s := Some {| cc := conn |}.

Record Client : Type := {
  systemService : ServiceClient system;
  adminService : ServiceClient admin;
  managementService : ServiceClient management;
  userService : ServiceClient userV2Beta;
  userServiceV2 : ServiceClient userV2;
  authService : ServiceClient auth;
  settingsService : ServiceClient settingsV2Beta;
  settingsServiceV2 : ServiceClient settingsV2;
  sessionService : ServiceClient sessionV2Beta;
  sessionServiceV2 : ServiceClient sessionV2;
  organizationService : ServiceClient orgV2Beta;
  organizationServiceV2 : ServiceClient orgV2;
  oidcService : ServiceClient oidcV2Beta;
  oidcServiceV2 : ServiceClient oidcV2;
}.

(** ** Programs that call out *)

(** The calls that leave [client.go], indexed by what comes back.  A Go
    result pair [(v, err)] is a pair of options: [client.go] tests [err]
    only and passes [v] on as it is. *)
Inductive Call : Type → Type :=
| CallInitializer (init : TokenSourceInitializer) (ctx : context) (issuer : string)
  : Call (option TokenSource * option error)
| transportCredentials (domain : string) (isTLS : bool)
  : Call (option TransportCredentials * option error)
| DialContext (ctx : context) (target : string) (opts : list DialOption)
  : Call (option ClientConn * option error)
| Token (ts : TokenSource)
  : Call (string + error).

Inductive Prog (R : Type) : Type :=
| Ret (r : R)
| Vis {X : Type} (c : Call X) (k : X → Prog R).
Arguments Ret {R} _.
Arguments Vis {R X} _ _.

Fixpoint bind {A B : Type} (p : Prog A) (f : A → Prog B) : Prog B :=
  match p with
  | Ret a => f a
  | Vis c k => Vis c (λ x, bind (k x) f)
  end.

#[export] Instance Prog_ret : MRet Prog := @Ret.
#[export] Instance Prog_bind : MBind Prog := λ A B f p, bind p f.

Definition call {X : Type} (c : Call X) : Prog X := Vis c Ret.

(** One entry of the call log: the call and its answer. *)
Inductive Event : Type :=
| EvInitializer (init : TokenSourceInitializer) (ctx : context) (issuer : string)
    (r : option TokenSource * option error)
| EvTransportCredentials (domain : string) (isTLS : bool)
    (r : option TransportCredentials * option error)
| EvDialContext (ctx : context) (target : string) (opts : list DialOption)
    (r : option ClientConn * option error)
| EvToken (ts : TokenSource) (r : string + error).

Definition event {X : Type} (c : Call X) : X → Event :=
  match c with
  | CallInitializer init ctx issuer => EvInitializer init ctx issuer
  | transportCredentials domain isTLS => EvTransportCredentials domain isTLS
  | DialContext ctx target opts => EvDialContext ctx target opts
  | Token ts => EvToken ts
  end.

(** The environment: every call is answered from the state of the world
    [W], which the call may change. *)
Definition handler (W : Type) : Type := ∀ X : Type, Call X → W → X * W.

Fixpoint exec {W R : Type} (h : handler W) (p : Prog R) (w : W)
  : R * W * list Event :=
  match p with
  | Ret r => (r, w, [])
  | Vis c k =>
      let '(x, w1) := h _ c w in
      let '(r, w2, log) := exec h (k x) w1 in
      (r, w2, event c x :: log)
  end.

Definition result {W R : Type} (o : R * W * list Event) : R := o.1.1.
Definition calls {W R : Type} (o : R * W * list Event) : list Event := o.2.

(** ** client.go *)

Definition WithAuth (init : option TokenSourceInitializer) : Option :=
  λ c, {| initTokenSource := init;
          grpcDialOptions := grpcDialOptions c |}.

Definition WithGRPCDialOptions (opts : list DialOption) : Option :=
  λ c, {| initTokenSource := initTokenSource c;
          grpcDialOptions := grpcDialOptions c ++ opts |}.

(** [var options clientOptions] *)
Definition zero_clientOptions : clientOptions :=
  {| initTokenSource := None; grpcDialOptions := [] |}.

(** [for _, o := range opts { o(&options) }] *)
Definition applyOptions (opts : list Option) : clientOptions :=
  foldl (λ options (o : Option), o options) zero_clientOptions opts.

Definition newConnection (ctx : context) (zitadel : Zitadel)
    (tokenSource : option TokenSource) (opts : list DialOption)
  : Prog (option ClientConn * option error) :=
  '(transportCreds, err) ← call (transportCredentials (Domain zitadel) (IsTLS zitadel));
  match err with
  | Some e => mret (None, Some e)
  | None =>
      let dialOptions :=
        [ WithTransportCredentials transportCreds;
          WithPerRPCCredentials
            {| tls := IsTLS zitadel; tokenSource := tokenSource |} ] in
      let dialOptions := dialOptions ++ opts in
      call (DialContext ctx (Host zitadel) dialOptions)
  end.

Definition New (ctx : context) (zitadel : Zitadel) (opts : list Option)
  : Prog (option Client * option error) :=
  let options := applyOptions opts in
  '(source, err) ←
    match initTokenSource options with
    | Some init => call (CallInitializer init ctx (Origin zitadel))
    | None => mret (None, None)
    end;
  match err with
  | Some e => mret (None, Some e)
  | None =>
      '(conn, err) ← newConnection ctx zitadel source (grpcDialOptions options);
      match err with
      | Some e => mret (None, Some e)
      | None =>
          mret (Some
            {| systemService := NewServiceClient system conn;
               adminService := NewServiceClient admin conn;
               managementService := NewServiceClient management conn;
               userService := NewServiceClient userV2Beta conn;
               userServiceV2 := NewServiceClient userV2 conn;
               authService := NewServiceClient auth conn;
               settingsService := NewServiceClient settingsV2Beta conn;
               settingsServiceV2 := NewServiceClient settingsV2 conn;
               sessionService := NewServiceClient sessionV2Beta conn;
               sessionServiceV2 := NewServiceClient sessionV2 conn;
               organizationService := NewServiceClient orgV2Beta conn;
               organizationServiceV2 := NewServiceClient orgV2 conn;
               oidcService := NewServiceClient oidcV2Beta conn;
               oidcServiceV2 := NewServiceClient oidcV2 conn |}, None)
      end
  end.

(** A method on [*Client]: the handle before the call goes in, the value
    returned and the handle after the call come out. *)
Definition method (R : Type) : Type := Client → R * Client.

Definition SystemService : method (ServiceClient system) :=
  λ c, (systemService c, c).

Definition AdminService : method (ServiceClient admin) :=
  λ c, (adminService c, c).

Definition ManagementService : method (ServiceClient management) :=
  λ c, (managementService c, c).

Definition AuthService : method (ServiceClient auth) :=
  λ c, (authService c, c).

Definition UserService : method (ServiceClient userV2Beta) :=
  λ c, (userService c, c).

Definition UserServiceV2 : method (ServiceClient userV2) :=
  λ c, (userServiceV2 c, c).

Definition SettingsService : method (ServiceClient settingsV2Beta) :=
  λ c, (settingsService c, c).

Definition SettingsServiceV2 : method (ServiceClient settingsV2) :=
  λ c, (settingsServiceV2 c, c).

Definition SessionService : method (ServiceClient sessionV2Beta) :=
  λ c, (sessionService c, c).

Definition SessionServiceV2 : method (ServiceClient sessionV2) :=
  λ c, (sessionServiceV2 c, c).

Definition OIDCService : method (ServiceClient oidcV2Beta) :=
  λ c, (oidcService c, c).

Definition OIDCServiceV2 : method (ServiceClient oidcV2) :=
  λ c, (oidcServiceV2 c, c).

Definition OrganizationService : method (ServiceClient orgV2Beta) :=
  λ c, (organizationService c, c).

Definition OrganizationServiceV2 : method (ServiceClient orgV2) :=
  λ c, (organizationServiceV2 c, c).

(** The fourteen accessors as one family, to quantify over them. *)
Definition accessor (s : Service) : method (ServiceClient s) :=
  match s with
  | system => SystemService
  | admin => AdminService
  | management => ManagementService
  | userV2Beta => UserService
  | userV2 => UserServiceV2
  | auth => AuthService
  | settingsV2Beta => SettingsService
  | settingsV2 => SettingsServiceV2
  | sessionV2Beta => SessionService
  | sessionV2 => SessionServiceV2
  | orgV2Beta => OrganizationService
  | orgV2 => OrganizationServiceV2
  | oidcV2Beta => OIDCService
  | oidcV2 => OIDCServiceV2
  end.

(** The field of the handle that holds the stub of a service. *)
Definition stored (s : Service) : Client → ServiceClient s :=
  match s with
  | system => systemService
  | admin => adminService
  | management => managementService
  | userV2Beta => userService
  | userV2 => userServiceV2
  | auth => authService
  | settingsV2Beta => settingsService
  | settingsV2 => settingsServiceV2
  | sessionV2Beta => sessionService
  | sessionV2 => sessionServiceV2
  | orgV2Beta => organizationService
  | orgV2 => organizationServiceV2
  | oidcV2Beta => oidcService
  | oidcV2 => oidcServiceV2
  end.

(** ** The credential provider *)

(** Modelled from the spec: the two methods of [cred], which are declared in
    another file of package [client].  Spec 4.1: "If no token source was
    configured, returns an empty mapping and no error.  If a token source is
    configured, invokes it to obtain the current valid token [...] this
    component does not cache.  Returns a single entry mapping the
    authorization header name to a bearer-scheme token value.  Fails with a
    propagated error if the token source cannot produce a token."  The
    header name and the scheme are those of the spec's scenario,
    [{"authorization": "Bearer tok123"}]. *)
Definition GetRequestMetadata (c : cred) (ctx : context) (requestInfo : list string)
  : Prog (gmap string string * option error) :=
  match tokenSource c with
  | None => mret (∅, None)
  | Some ts =>
      r ← call (Token ts);
      match r with
      | inl token => mret ({[ "authorization" := "Bearer " +:+ token ]}, None)
      | inr e => mret (∅, Some e)
      end
  end.

(** Modelled from the spec: "Returns true iff the connection was configured
    as TLS". *)
Definition RequiresTransportSecurity (c : cred) : bool := tls c.

(** ** Reading a call log *)

(** The error a call came back with, if any. *)
Definition failure (ev : Event) : option error :=
  match ev with
  | EvInitializer _ _ _ r => r.2
  | EvTransportCredentials _ _ r => r.2
  | EvDialContext _ _ _ r => r.2
  | EvToken _ (inl _) => None
  | EvToken _ (inr e) => Some e
  end.

Definition isInitializer (ev : Event) : bool :=
  match ev with EvInitializer _ _ _ _ => true | _ => false end.

Definition isDialContext (ev : Event) : bool :=
  match ev with EvDialContext _ _ _ _ => true | _ => false end.

(** Which call an entry of the log records. *)
Inductive Kind : Type := KInitializer | KCredentials | KDial | KToken.

Definition kind (ev : Event) : Kind :=
  match ev with
  | EvInitializer _ _ _ _ => KInitializer
  | EvTransportCredentials _ _ _ => KCredentials
  | EvDialContext _ _ _ _ => KDial
  | EvToken _ _ => KToken
  end.

(** ** Option lists as a caller writes them *)

(** The two ways [client.go] offers to build an [Option], with the
    arguments given. *)
Inductive OptionCall : Type :=
| AuthCall (init : option TokenSourceInitializer)
| DialOptionsCall (opts : list DialOption).

Definition toOption (c : OptionCall) : Option :=
  match c with
  | AuthCall init => WithAuth init
  | DialOptionsCall opts => WithGRPCDialOptions opts
  end.

Definition authArg (c : OptionCall) : option (option TokenSourceInitializer) :=
  match c with AuthCall init => Some init | DialOptionsCall _ => None end.

Definition dialArgs (c : OptionCall) : list DialOption :=
  match c with AuthCall _ => [] | DialOptionsCall opts => opts end.

(** The argument of the last [WithAuth], nil without one. *)
Definition lastAuth (cs : list OptionCall) : option TokenSourceInitializer :=
  default None (last (omap authArg cs)).

(** The arguments of all [WithGRPCDialOptions], in the order written. *)
Definition allDialOptions (cs : list OptionCall) : list DialOption :=
  concat (dialArgs <$> cs).

End Model.

Arguments cc {_ s} _.
Arguments Ret {_ R} _.
Arguments Vis {_ R X} _ _.

(** [Interleave l r m]: [m] holds the elements of [l] and of [r], each list
    in its own order. *)
Inductive Interleave {A : Type} : list A → list A → list A → Prop :=
| Interleave_nil : Interleave [] [] []
| Interleave_l x l r m : Interleave l r m → Interleave (x :: l) r (x :: m)
| Interleave_r y l r m : Interleave l r m → Interleave l (y :: r) (y :: m).

(** ** A concrete world

    The spec's scenario: endpoint [example.com:443] over TLS, a token source
    that yields [tok123]. *)
Module Sample.

#[local] Instance externals : Externals := {|
  context := unit;
  error := string;
  TokenSource := string;
  TokenSourceInitializer := string;
  TransportCredentials := string;
  ClientConn := nat;
  CallerDialOption := string;
|}.

Definition endpoint : Zitadel :=
  {| Domain := "example.com"; IsTLS := true;
     Host := "example.com:443"; Origin := "https://example.com" |}.

Definition plaintext : Zitadel :=
  {| Domain := "localhost"; IsTLS := false;
     Host := "localhost:8080"; Origin := "http://localhost:8080" |}.

(** The world is the list of tokens still to be issued.  The initializer
    ["PAT"] yields a token source, any other one fails; an empty domain
    has no transport credentials; an empty target cannot be dialled. *)
Definition env : handler (list string) :=
  λ X c,
    match c in Call X return list string → X * list string with
    | CallInitializer init ctx issuer => λ w,
        (if String.eqb init "PAT" then (Some ("pat@" +:+ issuer), None)
         else (None, Some "invalid credentials"), w)
    | transportCredentials domain isTLS => λ w,
        (if String.eqb domain "" then (None, Some "invalid domain")
         else (Some domain, None), w)
    | DialContext ctx target opts => λ w,
        (if String.eqb target "" then (None, Some "dial failed")
         else (Some 7, None), w)
    | Token ts => λ w,
        match w with
        | token :: w' => (inl token, w')
        | [] => (inr "token expired", [])
        end
    end.

(** The two initializers that the world knows of. *)
Definition PAT : option TokenSourceInitializer := Some "PAT".
Definition JWT : option TokenSourceInitializer := Some "JWT".

(** What the world answers with for [PAT] and for the two endpoints. *)
Definition patSource : option TokenSource := Some "pat@https://example.com".
Definition exampleCreds : option TransportCredentials := Some "example.com".
Definition localhostCreds : option TransportCredentials := Some "localhost".

(** Two dial options of a caller. *)
Definition A : DialOption := @CallerOption externals "A".
Definition B : DialOption := @CallerOption externals "B".

(** An endpoint whose host cannot be dialled. *)
Definition unreachable : Zitadel :=
  {| Domain := "example.com"; IsTLS := true;
     Host := ""; Origin := "https://example.com" |}.

(** The handle that [New] builds over connection [7]. *)
Definition handle : Client :=
  let conn := Some 7 in
  {| systemService := NewServiceClient system conn;
     adminService := NewServiceClient admin conn;
     managementService := NewServiceClient management conn;
     userService := NewServiceClient userV2Beta conn;
     userServiceV2 := NewServiceClient userV2 conn;
     authService := NewServiceClient auth conn;
     settingsService := NewServiceClient settingsV2Beta conn;
     settingsServiceV2 := NewServiceClient settingsV2 conn;
     sessionService := NewServiceClient sessionV2Beta conn;
     sessionServiceV2 := NewServiceClient sessionV2 conn;
     organizationService := NewServiceClient orgV2Beta conn;
     organizationServiceV2 := NewServiceClient orgV2 conn;
     oidcService := NewServiceClient oidcV2Beta conn;
     oidcServiceV2 := NewServiceClient oidcV2 conn |}.

(** An endpoint for which no transport credentials can be built. *)
Definition nodomain : Zitadel :=
  {| Domain := ""; IsTLS := true;
     Host := "example.com:443"; Origin := "https://example.com" |}.

(** An initializer that yields neither a token source nor an error. *)
Definition env_nil_source : handler (list string) :=
  λ X c,
    match c in Call X return list string → X * list string with
    | CallInitializer init ctx issuer => λ w, ((None, None), w)
    | c' => env _ c'
    end.

End Sample.

(** * Properties *)

Section Properties.
Context `{Externals}.

(** Running a sequence is running its parts: the logs are appended. *)
Lemma exec_bind {W A B : Type} (h : handler W) (p : Prog A) (f : A → Prog B) (w : W) :
  exec h (bind p f) w =
    let '(a, w1, log1) := exec h p w in
    let '(b, w2, log2) := exec h (f a) w1 in
    (b, w2, log1 ++ log2).
Proof.
  revert w. induction p as [a | X c k IH]; intros w; simpl.
  - by destruct (exec h (f a) w) as [[b w2] log2].
  - destruct (h X c w) as [x w1]. rewrite IH.
    destruct (exec h (k x) w1) as [[a w2] log1].
    by destruct (exec h (f a) w2) as [[b w3] log2].
Qed.

(** [GetRequestMetadata] without a token source: nothing is called. *)
Lemma GetRequestMetadata_nil_source {W : Type} (h : handler W) (w : W)
    (c : cred) (ctx : context) (info : list string) :
  tokenSource c = None →
  exec h (GetRequestMetadata c ctx info) w = ((∅, None), w, []).
Proof. intros Hsrc. unfold GetRequestMetadata. by rewrite Hsrc. Qed.

(** [GetRequestMetadata] with a token source that issues [token]. *)
Lemma GetRequestMetadata_token {W : Type} (h : handler W) (w w' : W)
    (c : cred) (ts : TokenSource) (ctx : context) (info : list string)
    (token : string) :
  tokenSource c = Some ts →
  h _ (Token ts) w = (inl token, w') →
  exec h (GetRequestMetadata c ctx info) w =
    (({[ "authorization" := "Bearer " +:+ token ]}, None), w',
     [EvToken ts (inl token)]).
Proof.
  intros Hsrc Htoken. unfold GetRequestMetadata. rewrite Hsrc. simpl.
  by rewrite Htoken.
Qed.

(** The option loop folds from the left, so a last option is applied last:
    a last [WithAuth] decides the initializer, a last [WithGRPCDialOptions]
    extends the dial options at their end. *)
Lemma applyOptions_snoc (opts : list Option) (o : Option) :
  applyOptions (opts ++ [o]) = o (applyOptions opts).
Proof. unfold applyOptions. by rewrite foldl_app. Qed.

Lemma WithAuth_last_wins (opts : list Option) (init : option TokenSourceInitializer) :
  initTokenSource (applyOptions (opts ++ [WithAuth init])) = init.
Proof. by rewrite applyOptions_snoc. Qed.

Lemma WithGRPCDialOptions_appends (opts : list Option) (extra : list DialOption) :
  grpcDialOptions (applyOptions (opts ++ [WithGRPCDialOptions extra]))
  = grpcDialOptions (applyOptions opts) ++ extra.
Proof. by rewrite applyOptions_snoc. Qed.

(** Case analysis on the answer of the next call of a run. *)
Ltac answer :=
  match goal with
  | |- context [?h _ (CallInitializer ?i ?c ?s) ?w] =>
      destruct (h _ (CallInitializer i c s) w) as [[? [?|]] ?] eqn:?
  | |- context [?h _ (transportCredentials ?d ?t) ?w] =>
      destruct (h _ (transportCredentials d t) w) as [[? [?|]] ?] eqn:?
  | |- context [?h _ (DialContext ?c ?t ?o) ?w] =>
      destruct (h _ (DialContext c t o) w) as [[? [?|]] ?] eqn:?
  end; simpl.

(** Unfold [New] down to its calls and split on every answer. *)
Ltac run_New := unfold New, newConnection; simpl; repeat answer.

(** Membership of an event in a log that is known element by element. *)
Ltac in_log :=
  repeat match goal with
         | H : _ ∈ [] |- _ => by apply elem_of_nil in H
         | H : _ ∈ _ :: _ |- _ => apply elem_of_cons in H as [H | H]
         end; simplify_eq/=.

(** Find in a log that is known element by element an event with the
    property asked for. *)
Ltac pick_event :=
  let rec go l :=
    lazymatch l with
    | ?ev :: ?l' => first [ by (exists ev; split; [set_solver | done]) | go l' ]
    end in
  lazymatch goal with
  | |- ∃ ev, ev ∈ ?l ∧ _ => go l
  end.

(** C10: each option touches its own field only.  [WithAuth] leaves the
    accumulated dial options as they are, [WithGRPCDialOptions] leaves the
    token-source initializer as it is, and [WithGRPCDialOptions] without
    arguments leaves the whole configuration as it is. *)
Theorem options_frame (c : clientOptions) (init : option TokenSourceInitializer)
    (opts : list DialOption) :
  grpcDialOptions (WithAuth init c) = grpcDialOptions c
  ∧ initTokenSource (WithGRPCDialOptions opts c) = initTokenSource c
  ∧ WithGRPCDialOptions [] c = c.
Proof.
  split; [done|]. split; [done|].
  destruct c as [i l]. unfold WithGRPCDialOptions; simpl.
  by rewrite app_nil_r.
Qed.

(** C2: when the configured token-source initializer comes back with an
    error, [New] returns a nil handle and that very error, and the
    initializer is the only call made: neither [transportCredentials] nor
    [grpc.DialContext] is reached. *)
Theorem New_initializer_error {W : Type} (h : handler W) (w w' : W)
    (ctx : context) (z : Zitadel) (opts : list Option)
    (init : TokenSourceInitializer) (source : option TokenSource) (e : error) :
  initTokenSource (applyOptions opts) = Some init →
  h _ (CallInitializer init ctx (Origin z)) w = ((source, Some e), w') →
  exec h (New ctx z opts) w =
    ((None, Some e), w', [EvInitializer init ctx (Origin z) (source, Some e)]).
Proof.
  intros Hinit Hanswer. unfold New. rewrite Hinit. simpl.
  by rewrite Hanswer.
Qed.

(** C8: when an initializer is configured, [New] calls it exactly once, with
    the context of the build and the endpoint's [Origin()]; it is the first
    call of the run. *)
Theorem New_calls_initializer_once {W : Type} (h : handler W) (w : W)
    (ctx : context) (z : Zitadel) (opts : list Option)
    (init : TokenSourceInitializer) :
  initTokenSource (applyOptions opts) = Some init →
  ∃ r rest,
    calls (exec h (New ctx z opts) w) = EvInitializer init ctx (Origin z) r :: rest
    ∧ List.filter isInitializer (calls (exec h (New ctx z opts) w))
      = [EvInitializer init ctx (Origin z) r].
Proof.
  intros Hinit. unfold New. rewrite Hinit. run_New; by eexists _, _.
Qed.

(** C7: whichever construction step fails (initializer, transport
    credentials, dial), [New] returns a nil handle together with the error
    of that step as it came back; and whenever [New] returns an error, the
    handle is nil and the error is the one of a failed step. *)
Theorem New_propagates_errors {W : Type} (h : handler W) (w : W)
    (ctx : context) (z : Zitadel) (opts : list Option) :
  let o := exec h (New ctx z opts) w in
  (∀ ev e, ev ∈ calls o → failure ev = Some e → result o = (None, Some e))
  ∧ (∀ client e, result o = (client, Some e) →
       client = None ∧ ∃ ev, ev ∈ calls o ∧ failure ev = Some e).
Proof.
  simpl. unfold New.
  destruct (initTokenSource (applyOptions opts)) as [init|]; run_New;
    (split; [intros ev e' Hin Hfail; unfold calls in Hin; simpl in Hin; by in_log
            | intros client e' Hres; unfold result, calls in *; simplify_eq/=;
              try (split; [done | pick_event])]).
Qed.

(** C1: with [WithGRPCDialOptions(A)] then [WithGRPCDialOptions(B)] and
    [WithAuth(f1)] then [WithAuth(f2)] among the options, in any
    interleaving, the configuration holds the dial options [A; B] and the
    initializer [f2]; only [f2] is ever called; any dial of the run gets
    exactly the transport credentials, the per-RPC credentials, [A], [B];
    and [New] does dial so: once [f2], if there is one, and
    [transportCredentials] have come back without error, the calls of the
    run are the call of [f2], [transportCredentials], and
    [grpc.DialContext] on that sequence of four options. *)
Theorem New_merges_options {W : Type} (h : handler W) (w : W)
    (ctx : context) (z : Zitadel) (A B : DialOption)
    (f1 f2 : option TokenSourceInitializer) (opts : list Option) :
  Interleave [WithGRPCDialOptions [A]; WithGRPCDialOptions [B]]
             [WithAuth f1; WithAuth f2] opts →
  let o := exec h (New ctx z opts) w in
  applyOptions opts = {| initTokenSource := f2; grpcDialOptions := [A; B] |}
  ∧ (∀ init ctx' issuer r,
       EvInitializer init ctx' issuer r ∈ calls o → f2 = Some init)
  ∧ (∀ ctx' target dialOptions r,
       EvDialContext ctx' target dialOptions r ∈ calls o →
       ∃ tc source,
         dialOptions =
           [ WithTransportCredentials tc;
             WithPerRPCCredentials {| tls := IsTLS z; tokenSource := source |};
             A; B ])
  ∧ (∀ (source : option TokenSource) (tc : option TransportCredentials)
       (r : option ClientConn * option error) (w1 w2 w3 : W),
       let dialOptions :=
         [ WithTransportCredentials tc;
           WithPerRPCCredentials {| tls := IsTLS z; tokenSource := source |};
           A; B ] in
       match f2 with
       | Some init =>
           h _ (CallInitializer init ctx (Origin z)) w = ((source, None), w1)
       | None => source = None ∧ w1 = w
       end →
       h _ (transportCredentials (Domain z) (IsTLS z)) w1 = ((tc, None), w2) →
       h _ (DialContext ctx (Host z) dialOptions) w2 = (r, w3) →
       calls o =
         match f2 with
         | Some init => [EvInitializer init ctx (Origin z) (source, None)]
         | None => []
         end
         ++ [ EvTransportCredentials (Domain z) (IsTLS z) (tc, None);
              EvDialContext ctx (Host z) dialOptions r ]).
Proof.
  intros Hopts.
  assert (applyOptions opts = {| initTokenSource := f2; grpcDialOptions := [A; B] |})
    as Happlied.
  { repeat match goal with
           | H : Interleave _ _ _ |- _ => inversion H; clear H; subst
           end; reflexivity. }
  simpl. split; [done|]. clear Hopts.
  split; [|split].
  - unfold New. rewrite Happlied. simpl.
    destruct f2 as [init|]; run_New;
      intros ???? Hin; unfold calls in Hin; simpl in Hin; by in_log.
  - unfold New. rewrite Happlied. simpl.
    destruct f2 as [init|]; run_New;
      intros ???? Hin; unfold calls in Hin; simpl in Hin; in_log;
      by eexists _, _.
  - intros source tc r w1 w2 w3 Hinit Hcreds Hdial.
    unfold New, newConnection. rewrite Happlied. simpl.
    destruct f2 as [init|]; simpl.
    + rewrite Hinit. simpl. rewrite Hcreds. simpl. rewrite Hdial.
      by destruct r as [conn [e|]].
    + destruct Hinit as [-> ->]. rewrite Hcreds. simpl. rewrite Hdial.
      by destruct r as [conn [e|]].
Qed.

(** C6: on the handle of a successful [New] every accessor returns a
    non-nil stub, and every stub holds the one connection that the one
    [grpc.DialContext] of the run returned, dialled with the one [cred]
    built for it. *)
Theorem New_shares_connection {W : Type} (h : handler W) (w : W)
    (ctx : context) (z : Zitadel) (opts : list Option)
    (client : Client) (err : option error) :
  let o := exec h (New ctx z opts) w in
  result o = (Some client, err) →
  ∃ conn tc source,
    err = None
    ∧ (∀ s, ∃ st : stub s, (accessor s client).1 = Some st ∧ cc st = conn)
    ∧ List.filter isDialContext (calls o) =
        [ EvDialContext ctx (Host z)
            (WithTransportCredentials tc
             :: WithPerRPCCredentials {| tls := IsTLS z; tokenSource := source |}
             :: grpcDialOptions (applyOptions opts))
            (conn, None) ].
Proof.
  simpl. unfold New.
  destruct (initTokenSource (applyOptions opts)) as [init|]; run_New;
    intros Hres; unfold result, calls in *; simplify_eq/=;
    (eexists _, _, _; split; [done|]; split; [|done]);
    by intros []; eexists.
Qed.

(** C9: each of the fourteen accessors takes the handle alone, returns the
    stub in its own field of the handle and hands the handle back with every
    field as it was, on any handle; on the handle of a successful [New] that
    field holds the stub that [New] built for the service from the
    connection of the run's dial, and a second call returns the same. *)
Theorem accessors_pure {W : Type} (h : handler W) (w : W)
    (ctx : context) (z : Zitadel) (opts : list Option)
    (client : Client) (err : option error) :
  let o := exec h (New ctx z opts) w in
  result o = (Some client, err) →
  (∀ s (c : Client), accessor s c = (stored s c, c))
  ∧ ∃ conn dialOptions,
      List.filter isDialContext (calls o)
      = [EvDialContext ctx (Host z) dialOptions (conn, None)]
      ∧ ∀ s,
          stored s client = NewServiceClient s conn
          ∧ accessor s client = (stored s client, client)
          ∧ accessor s (accessor s client).2 = (stored s client, client).
Proof.
  simpl. intros Hres. split; [by intros []|]. revert Hres. unfold New.
  destruct (initTokenSource (applyOptions opts)) as [init|]; run_New;
    intros Hres; unfold result, calls in *; simplify_eq/=;
    eexists _, _; (split; [done|]); by intros [].
Qed.

(** The [cred] of a dial that [New] has made: its [tls] is the endpoint's,
    its token source is nil when no initializer is configured and is what
    the initializer returned otherwise. *)
Lemma New_dial_cred {W : Type} (h : handler W) (w : W)
    (ctx : context) (z : Zitadel) (opts : list Option)
    (ctx' : context) (target : string) (dialOptions : list DialOption)
    (r : option ClientConn * option error) (c : cred) :
  EvDialContext ctx' target dialOptions r ∈ calls (exec h (New ctx z opts) w) →
  dialOptions !! 1 = Some (WithPerRPCCredentials c) →
  tls c = IsTLS z
  ∧ (initTokenSource (applyOptions opts) = None → tokenSource c = None)
  ∧ (∀ init ctx0 issuer r0,
       EvInitializer init ctx0 issuer r0 ∈ calls (exec h (New ctx z opts) w) →
       tokenSource c = r0.1).
Proof.
  unfold New.
  destruct (initTokenSource (applyOptions opts)) as [init|]; run_New;
    intros Hin Hc; unfold calls in *; simpl in Hin; in_log;
    (split; [done|]); (split; [done|]);
    intros ???? Hinit; simpl in Hinit; by in_log.
Qed.

(** C5: the [cred] that [New] attaches to the connection requires transport
    security exactly when the endpoint is a TLS one, whatever the options
    say about a token source. *)
Theorem cred_requires_transport_security {W : Type} (h : handler W) (w : W)
    (ctx : context) (z : Zitadel) (opts : list Option)
    (ctx' : context) (target : string) (dialOptions : list DialOption)
    (r : option ClientConn * option error) (c : cred) :
  EvDialContext ctx' target dialOptions r ∈ calls (exec h (New ctx z opts) w) →
  dialOptions !! 1 = Some (WithPerRPCCredentials c) →
  RequiresTransportSecurity c = true ↔ IsTLS z = true.
Proof.
  intros Hin Hc. destruct (New_dial_cred _ _ _ _ _ _ _ _ _ _ Hin Hc) as [Htls _].
  unfold RequiresTransportSecurity. by rewrite Htls.
Qed.

(** C4: when the options configure no initializer, the [cred] that [New]
    attaches to the connection answers [GetRequestMetadata] with the empty
    mapping and no error, without calling out, for a TLS endpoint and for a
    plaintext one alike. *)
Theorem GetRequestMetadata_unauthenticated {W : Type} (h : handler W) (w : W)
    (ctx : context) (z : Zitadel) (opts : list Option)
    (ctx' : context) (target : string) (dialOptions : list DialOption)
    (r : option ClientConn * option error) (c : cred) :
  initTokenSource (applyOptions opts) = None →
  EvDialContext ctx' target dialOptions r ∈ calls (exec h (New ctx z opts) w) →
  dialOptions !! 1 = Some (WithPerRPCCredentials c) →
  ∀ (W' : Type) (h' : handler W') (w' : W') (ctx2 : context) (info : list string),
    exec h' (GetRequestMetadata c ctx2 info) w' = ((∅, None), w', []).
Proof.
  intros Hnone Hin Hc.
  destruct (New_dial_cred _ _ _ _ _ _ _ _ _ _ Hin Hc) as (_ & Hsrc & _).
  intros. by apply GetRequestMetadata_nil_source, Hsrc.
Qed.

(** C3: when the configured initializer has returned the token source [ts],
    the [cred] that [New] attaches to the connection answers
    [GetRequestMetadata] by asking [ts] for a token, once per call, and
    returns the mapping whose only entry is [authorization], bound to
    ["Bearer "] followed by the token just issued, and no error; a second
    call asks again and carries the second token. *)
Theorem GetRequestMetadata_bearer {W : Type} (h : handler W) (w : W)
    (ctx : context) (z : Zitadel) (opts : list Option)
    (init : TokenSourceInitializer) (ts : TokenSource)
    (ctx' : context) (target : string) (dialOptions : list DialOption)
    (r : option ClientConn * option error) (c : cred) :
  EvInitializer init ctx (Origin z) (Some ts, None)
    ∈ calls (exec h (New ctx z opts) w) →
  EvDialContext ctx' target dialOptions r ∈ calls (exec h (New ctx z opts) w) →
  dialOptions !! 1 = Some (WithPerRPCCredentials c) →
  ∀ (W' : Type) (h' : handler W') (w0 w1 : W') (ctx2 : context)
    (info : list string) (token : string),
    h' _ (Token ts) w0 = (inl token, w1) →
    exec h' (GetRequestMetadata c ctx2 info) w0 =
      (({[ "authorization" := "Bearer " +:+ token ]}, None), w1,
       [EvToken ts (inl token)])
    ∧ size ({[ "authorization" := "Bearer " +:+ token ]} : gmap string string) = 1
    ∧ ∀ (w2 : W') (token' : string),
        h' _ (Token ts) w1 = (inl token', w2) →
        exec h' (GetRequestMetadata c ctx2 info ≫= λ _, GetRequestMetadata c ctx2 info) w0 =
          (({[ "authorization" := "Bearer " +:+ token' ]}, None), w2,
           [EvToken ts (inl token); EvToken ts (inl token')]).
Proof.
  intros Hinit Hin Hc.
  destruct (New_dial_cred _ _ _ _ _ _ _ _ _ _ Hin Hc) as (_ & _ & Hsrc).
  specialize (Hsrc _ _ _ _ Hinit). simpl in Hsrc.
  intros W' h' w0 w1 ctx2 info token Htoken.
  split; [by apply GetRequestMetadata_token|].
  split; [apply map_size_singleton|].
  intros w2 token' Htoken'.
  unfold mbind, Prog_bind. rewrite exec_bind.
  rewrite (GetRequestMetadata_token h' w0 w1 c ts ctx2 info token) by done.
  by rewrite (GetRequestMetadata_token h' w1 w2 c ts ctx2 info token').
Qed.

(** * Further properties of [client.go] *)

(** [New] looks at its options only through the configuration they build. *)
Lemma New_ext (ctx : context) (z : Zitadel) (opts opts' : list Option) :
  applyOptions opts = applyOptions opts' → New ctx z opts = New ctx z opts'.
Proof. intros Heq. unfold New. by rewrite Heq. Qed.

Lemma applyOptions_app (opts opts' : list Option) :
  applyOptions (opts ++ opts')
  = foldl (λ options (o : Option), o options) (applyOptions opts) opts'.
Proof. unfold applyOptions. by rewrite foldl_app. Qed.

(** X1: when [transportCredentials] comes back with an error,
    [newConnection] returns a nil connection and that error, whatever
    credentials came with it, and does not dial. *)
Theorem newConnection_credentials_error {W : Type} (h : handler W) (w w1 : W)
    (ctx : context) (z : Zitadel) (source : option TokenSource)
    (opts : list DialOption) (tc : option TransportCredentials) (e : error) :
  h _ (transportCredentials (Domain z) (IsTLS z)) w = ((tc, Some e), w1) →
  exec h (newConnection ctx z source opts) w =
    ((None, Some e), w1,
     [EvTransportCredentials (Domain z) (IsTLS z) (tc, Some e)]).
Proof. intros Hcreds. unfold newConnection. simpl. by rewrite Hcreds. Qed.

(** X2: when [transportCredentials] succeeds, [newConnection] dials once,
    with its own context, the endpoint's [Host()], and the two options it
    builds followed by the caller's in their order; what the dial returns,
    connection and error, is returned as it is. *)
Theorem newConnection_returns_dial {W : Type} (h : handler W) (w w1 w2 : W)
    (ctx : context) (z : Zitadel) (source : option TokenSource)
    (opts : list DialOption) (tc : option TransportCredentials)
    (r : option ClientConn * option error) :
  let dialOptions :=
    WithTransportCredentials tc
    :: WithPerRPCCredentials {| tls := IsTLS z; tokenSource := source |}
    :: opts in
  h _ (transportCredentials (Domain z) (IsTLS z)) w = ((tc, None), w1) →
  h _ (DialContext ctx (Host z) dialOptions) w1 = (r, w2) →
  exec h (newConnection ctx z source opts) w =
    (r, w2,
     [ EvTransportCredentials (Domain z) (IsTLS z) (tc, None);
       EvDialContext ctx (Host z) dialOptions r ]).
Proof.
  intros dialOptions Hcreds Hdial. unfold newConnection. simpl.
  rewrite Hcreds. simpl. subst dialOptions. by rewrite Hdial.
Qed.

(** X3: without a configured initializer (no options at all, or a nil
    [WithAuth]) [New] calls no initializer: its calls are those of
    [newConnection] with a nil token source, [transportCredentials] for the
    endpoint's domain and TLS flag first. *)
Theorem New_without_initializer {W : Type} (h : handler W) (w : W)
    (ctx : context) (z : Zitadel) (opts : list Option) :
  initTokenSource (applyOptions opts) = None →
  let o := exec h (New ctx z opts) w in
  calls o
  = calls (exec h (newConnection ctx z None (grpcDialOptions (applyOptions opts))) w)
  ∧ List.filter isInitializer (calls o) = []
  ∧ ∃ r rest, calls o = EvTransportCredentials (Domain z) (IsTLS z) r :: rest.
Proof.
  intros Hnone. unfold New. rewrite Hnone. run_New;
    (split; [done|]); (split; [done|]); by eexists _, _.
Qed.

(** X4: when the initializer returns without error, [New] goes on with
    [newConnection] on the token source returned, nil or not, and on the
    accumulated dial options; the error of [newConnection] is the error of
    [New], and its connection is the one in every stub of the handle. *)
Theorem New_after_initializer {W : Type} (h : handler W) (w w1 : W)
    (ctx : context) (z : Zitadel) (opts : list Option)
    (init : TokenSourceInitializer) (source : option TokenSource) :
  initTokenSource (applyOptions opts) = Some init →
  h _ (CallInitializer init ctx (Origin z)) w = ((source, None), w1) →
  let o := exec h (New ctx z opts) w in
  let n := exec h (newConnection ctx z source (grpcDialOptions (applyOptions opts))) w1 in
  calls o = EvInitializer init ctx (Origin z) (source, None) :: calls n
  ∧ (result o).2 = (result n).2
  ∧ ∀ client s, (result o).1 = Some client →
      (accessor s client).1 = NewServiceClient s (result n).1.
Proof.
  intros Hinit Hanswer. unfold New. rewrite Hinit. simpl. rewrite Hanswer.
  unfold newConnection. simpl. repeat answer;
    (split; [done|]); (split; [done|]);
    intros client s Hres; unfold result in *; simplify_eq/=; by destruct s.
Qed.

(** X5: the calls of a run of [New] are, in this order, at most one
    initializer call, one [transportCredentials] call and at most one dial;
    nothing is called twice, and no token is asked for. *)
Theorem New_call_order {W : Type} (h : handler W) (w : W)
    (ctx : context) (z : Zitadel) (opts : list Option) :
  kind <$> calls (exec h (New ctx z opts) w)
  ∈ [ [KCredentials]; [KCredentials; KDial];
      [KInitializer]; [KInitializer; KCredentials];
      [KInitializer; KCredentials; KDial] ].
Proof.
  unfold New.
  destruct (initTokenSource (applyOptions opts)) as [init|]; run_New;
    unfold calls; simpl; set_solver.
Qed.

(** X6: [New] returns either a handle and no error, or no handle and an
    error, never both and never neither; it returns a handle exactly when
    the run has dialled and the dial came back without error. *)
Theorem New_result_exclusive {W : Type} (h : handler W) (w : W)
    (ctx : context) (z : Zitadel) (opts : list Option) :
  let o := exec h (New ctx z opts) w in
  ((∃ client, result o = (Some client, None)) ∨ (∃ e, result o = (None, Some e)))
  ∧ ((∃ client, result o = (Some client, None))
     ↔ ∃ ctx' target dialOptions conn,
         EvDialContext ctx' target dialOptions (conn, None) ∈ calls o).
Proof.
  simpl. unfold New.
  destruct (initTokenSource (applyOptions opts)) as [init|]; run_New;
    unfold result, calls; simpl;
    (split; [by eauto|]);
    (split; [intros [client Hres]; simplify_eq/=;
             try (eexists _, _, _, _;
                  repeat first [apply list_elem_of_here | apply list_elem_of_further])
            | intros (ctx' & target & dialOptions & conn & Hin); in_log; by eauto]).
Qed.

(** X7: every dial of a run of [New] is made with the context given to
    [New] and the endpoint's [Host()]; its options are the transport
    credentials that the [transportCredentials] call of the run returned,
    the [cred] for the endpoint's TLS flag, and then the accumulated options
    of the caller, none dropped and none moved in front. *)
Theorem New_dial_arguments {W : Type} (h : handler W) (w : W)
    (ctx : context) (z : Zitadel) (opts : list Option)
    (ctx' : context) (target : string) (dialOptions : list DialOption)
    (r : option ClientConn * option error) :
  EvDialContext ctx' target dialOptions r ∈ calls (exec h (New ctx z opts) w) →
  ctx' = ctx ∧ target = Host z
  ∧ ∃ tc source,
      EvTransportCredentials (Domain z) (IsTLS z) (tc, None)
        ∈ calls (exec h (New ctx z opts) w)
      ∧ take 2 dialOptions =
          [ WithTransportCredentials tc;
            WithPerRPCCredentials {| tls := IsTLS z; tokenSource := source |} ]
      ∧ drop 2 dialOptions = grpcDialOptions (applyOptions opts).
Proof.
  unfold New.
  destruct (initTokenSource (applyOptions opts)) as [init|]; run_New;
    intros Hin; unfold calls in *; simpl in Hin; in_log;
    (split; [done|]); (split; [done|]); eexists _, _;
    (split; [repeat first [apply list_elem_of_here | apply list_elem_of_further]|]);
    done.
Qed.

(** X8: for any list of [WithAuth] and [WithGRPCDialOptions] options, of
    any length and in any order, the configuration that [New] builds holds
    the initializer of the last [WithAuth] (nil without one) and the
    arguments of all [WithGRPCDialOptions], concatenated in the order
    written. *)
Theorem applyOptions_calls (cs : list OptionCall) :
  applyOptions (toOption <$> cs)
  = {| initTokenSource := lastAuth cs; grpcDialOptions := allDialOptions cs |}.
Proof.
  induction cs as [|c cs IH] using rev_ind; [done|].
  rewrite fmap_app. simpl. rewrite applyOptions_snoc, IH.
  unfold lastAuth, allDialOptions.
  rewrite fmap_app, concat_app, omap_app. simpl.
  destruct c as [init | extra]; simpl.
  - by rewrite last_snoc, app_nil_r.
  - by rewrite !app_nil_r.
Qed.

(** X9: a [WithAuth] and a [WithGRPCDialOptions] next to each other can
    change places anywhere in the options without changing what [New]
    does. *)
Theorem New_options_commute (ctx : context) (z : Zitadel)
    (pre post : list Option) (init : option TokenSourceInitializer)
    (extra : list DialOption) :
  New ctx z (pre ++ WithAuth init :: WithGRPCDialOptions extra :: post)
  = New ctx z (pre ++ WithGRPCDialOptions extra :: WithAuth init :: post).
Proof. apply New_ext. by rewrite !applyOptions_app. Qed.

(** X10: two [WithGRPCDialOptions] next to each other do what one does with
    the arguments of both, so the options of one variadic call may be split
    over several. *)
Theorem New_dial_options_split (ctx : context) (z : Zitadel)
    (pre post : list Option) (extra extra' : list DialOption) :
  New ctx z (pre ++ WithGRPCDialOptions extra :: WithGRPCDialOptions extra' :: post)
  = New ctx z (pre ++ WithGRPCDialOptions (extra ++ extra') :: post).
Proof.
  apply New_ext. rewrite !applyOptions_app. simpl. f_equal.
  unfold WithGRPCDialOptions. simpl. by rewrite <- app_assoc.
Qed.

(** X11: a nil [WithAuth] as the last option switches authentication off,
    whatever the options before it configured: no initializer is called and
    the [cred] of the dial has no token source. *)
Theorem New_WithAuth_nil {W : Type} (h : handler W) (w : W)
    (ctx : context) (z : Zitadel) (opts : list Option) :
  let o := exec h (New ctx z (opts ++ [WithAuth None])) w in
  List.filter isInitializer (calls o) = []
  ∧ ∀ ctx' target dialOptions r,
      EvDialContext ctx' target dialOptions r ∈ calls o →
      dialOptions !! 1
      = Some (WithPerRPCCredentials {| tls := IsTLS z; tokenSource := None |}).
Proof.
  simpl. unfold New. rewrite WithAuth_last_wins. run_New;
    (split; [done|]);
    intros ???? Hin; unfold calls in Hin; simpl in Hin; by in_log.
Qed.

End Properties.

(** * The properties on the concrete world *)

Section Examples.
#[local] Existing Instance Sample.externals.

Lemma New_merges_options_witness :
  let opts := [ WithGRPCDialOptions [Sample.A]; WithAuth Sample.JWT;
                WithGRPCDialOptions [Sample.B]; WithAuth Sample.PAT ] in
  applyOptions opts =
    {| initTokenSource := Sample.PAT;
       grpcDialOptions := [Sample.A; Sample.B] |}
  ∧ calls (exec Sample.env (New () Sample.endpoint opts) ["tok123"])
    = [ EvInitializer "PAT" () "https://example.com" (Sample.patSource, None);
        EvTransportCredentials "example.com" true (Sample.exampleCreds, None);
        EvDialContext () "example.com:443"
          [ WithTransportCredentials Sample.exampleCreds;
            WithPerRPCCredentials {| tls := true; tokenSource := Sample.patSource |};
            Sample.A; Sample.B ]
          (Some 7, None) ].
Proof.
  intros opts.
  assert (Interleave [WithGRPCDialOptions [Sample.A]; WithGRPCDialOptions [Sample.B]]
                     [WithAuth Sample.JWT; WithAuth Sample.PAT] opts) as Hopts.
  { apply Interleave_l, Interleave_r, Interleave_l, Interleave_r, Interleave_nil. }
  destruct (New_merges_options Sample.env ["tok123"] () Sample.endpoint
              Sample.A Sample.B Sample.JWT Sample.PAT opts Hopts)
    as (Happlied & _ & _ & Hdial).
  split; [exact Happlied|].
  apply (Hdial Sample.patSource Sample.exampleCreds (Some 7, None)
           ["tok123"] ["tok123"] ["tok123"]); reflexivity.
Defined.

Lemma New_initializer_error_witness :
  exec Sample.env (New () Sample.endpoint [WithAuth Sample.JWT]) ["tok123"] =
    ((None, Some "invalid credentials"), ["tok123"],
     [EvInitializer "JWT" () "https://example.com" (None, Some "invalid credentials")]).
Proof.
  apply (New_initializer_error Sample.env); reflexivity.
Defined.

Lemma New_calls_initializer_once_witness :
  ∃ r rest,
    calls (exec Sample.env (New () Sample.endpoint [WithAuth Sample.PAT]) [])
      = EvInitializer "PAT" () "https://example.com" r :: rest
    ∧ List.filter isInitializer
        (calls (exec Sample.env (New () Sample.endpoint [WithAuth Sample.PAT]) []))
      = [EvInitializer "PAT" () "https://example.com" r].
Proof.
  apply (New_calls_initializer_once Sample.env). reflexivity.
Defined.

Lemma New_propagates_errors_witness :
  result (exec Sample.env (New () Sample.unreachable [WithAuth Sample.PAT]) [])
    = (None, Some "dial failed").
Proof.
  refine (proj1 (New_propagates_errors Sample.env [] () Sample.unreachable
                   [WithAuth Sample.PAT])
            (EvDialContext () ""
               [ WithTransportCredentials Sample.exampleCreds;
                 WithPerRPCCredentials
                   {| tls := true; tokenSource := Sample.patSource |} ]
               (None, Some "dial failed"))
            "dial failed" _ _).
  - vm_compute. do 2 apply list_elem_of_further. apply list_elem_of_here.
  - reflexivity.
Defined.

Lemma New_shares_connection_witness :
  ∃ conn tc source,
    (None : option error) = None
    ∧ (∀ s, ∃ st : stub s, (accessor s Sample.handle).1 = Some st ∧ cc st = conn)
    ∧ List.filter isDialContext
        (calls (exec Sample.env (New () Sample.endpoint [WithAuth Sample.PAT]) []))
      = [ EvDialContext () "example.com:443"
            (WithTransportCredentials tc
             :: WithPerRPCCredentials {| tls := true; tokenSource := source |}
             :: grpcDialOptions (applyOptions [WithAuth Sample.PAT]))
            (conn, None) ].
Proof.
  apply (New_shares_connection Sample.env [] () Sample.endpoint
           [WithAuth Sample.PAT] Sample.handle None).
  reflexivity.
Defined.

Lemma accessors_pure_witness :
  (∀ s (c : Client), accessor s c = (stored s c, c))
  ∧ ∃ conn dialOptions,
      List.filter isDialContext
        (calls (exec Sample.env (New () Sample.endpoint []) []))
      = [EvDialContext () "example.com:443" dialOptions (conn, None)]
      ∧ ∀ s,
          stored s Sample.handle = NewServiceClient s conn
          ∧ accessor s Sample.handle = (stored s Sample.handle, Sample.handle)
          ∧ accessor s (accessor s Sample.handle).2
            = (stored s Sample.handle, Sample.handle).
Proof.
  apply (accessors_pure Sample.env [] () Sample.endpoint [] Sample.handle None).
  reflexivity.
Defined.

Lemma cred_requires_transport_security_witness :
  RequiresTransportSecurity {| tls := false; tokenSource := None |} = true
  ↔ IsTLS Sample.plaintext = true.
Proof.
  apply (cred_requires_transport_security Sample.env [] () Sample.plaintext []
           () "localhost:8080"
           [ WithTransportCredentials Sample.localhostCreds;
             WithPerRPCCredentials {| tls := false; tokenSource := None |} ]
           (Some 7, None)).
  - vm_compute. apply list_elem_of_further, list_elem_of_here.
  - reflexivity.
Defined.

Lemma GetRequestMetadata_unauthenticated_witness :
  exec Sample.env
    (GetRequestMetadata {| tls := true; tokenSource := None |} () []) ["tok123"]
  = ((∅, None), ["tok123"], []).
Proof.
  apply (GetRequestMetadata_unauthenticated Sample.env [] () Sample.endpoint []
           () "example.com:443"
           [ WithTransportCredentials Sample.exampleCreds;
             WithPerRPCCredentials {| tls := true; tokenSource := None |} ]
           (Some 7, None)).
  - reflexivity.
  - vm_compute. apply list_elem_of_further, list_elem_of_here.
  - reflexivity.
Defined.

Lemma GetRequestMetadata_bearer_witness :
  exec Sample.env
    (GetRequestMetadata
       {| tls := true; tokenSource := Sample.patSource |} () [])
    ["tok123"; "tok456"]
  = (({[ "authorization" := "Bearer tok123" ]}, None), ["tok456"],
     [EvToken "pat@https://example.com" (inl "tok123")]).
Proof.
  apply (GetRequestMetadata_bearer Sample.env [] () Sample.endpoint
           [WithAuth Sample.PAT] "PAT" "pat@https://example.com"
           () "example.com:443"
           [ WithTransportCredentials Sample.exampleCreds;
             WithPerRPCCredentials
               {| tls := true; tokenSource := Sample.patSource |} ]
           (Some 7, None)).
  - vm_compute. apply list_elem_of_here.
  - vm_compute. do 2 apply list_elem_of_further. apply list_elem_of_here.
  - reflexivity.
  - reflexivity.
Defined.

Lemma newConnection_credentials_error_witness :
  exec Sample.env (newConnection () Sample.nodomain Sample.patSource [Sample.A]) []
  = ((None, Some "invalid domain"), [],
     [EvTransportCredentials "" true (None, Some "invalid domain")]).
Proof.
  apply (newConnection_credentials_error Sample.env); reflexivity.
Defined.

Lemma newConnection_returns_dial_witness :
  exec Sample.env (newConnection () Sample.unreachable Sample.patSource [Sample.A]) []
  = ((None, Some "dial failed"), [],
     [ EvTransportCredentials "example.com" true (Sample.exampleCreds, None);
       EvDialContext () ""
         [ WithTransportCredentials Sample.exampleCreds;
           WithPerRPCCredentials {| tls := true; tokenSource := Sample.patSource |};
           Sample.A ]
         (None, Some "dial failed") ]).
Proof.
  apply (newConnection_returns_dial Sample.env [] [] [] () Sample.unreachable
           Sample.patSource [Sample.A] Sample.exampleCreds
           (None, Some "dial failed")); reflexivity.
Defined.

Lemma New_without_initializer_witness :
  let o := exec Sample.env (New () Sample.endpoint []) [] in
  calls o = calls (exec Sample.env (newConnection () Sample.endpoint None []) [])
  ∧ List.filter isInitializer (calls o) = []
  ∧ ∃ r rest, calls o = EvTransportCredentials "example.com" true r :: rest.
Proof.
  apply (New_without_initializer Sample.env [] () Sample.endpoint []).
  reflexivity.
Defined.

Lemma New_after_initializer_witness :
  let o := exec Sample.env_nil_source
             (New () Sample.endpoint [WithAuth Sample.PAT]) [] in
  let n := exec Sample.env_nil_source
             (newConnection () Sample.endpoint None []) [] in
  calls o = EvInitializer "PAT" () "https://example.com" (None, None) :: calls n
  ∧ (result o).2 = (result n).2
  ∧ ∀ client s, (result o).1 = Some client →
      (accessor s client).1 = NewServiceClient s (result n).1.
Proof.
  apply (New_after_initializer Sample.env_nil_source [] [] () Sample.endpoint
           [WithAuth Sample.PAT] "PAT" None); reflexivity.
Defined.

Lemma New_result_exclusive_witness :
  ∃ client,
    result (exec Sample.env (New () Sample.endpoint [WithAuth Sample.PAT]) [])
    = (Some client, None).
Proof.
  apply (proj2 (New_result_exclusive Sample.env [] () Sample.endpoint
                  [WithAuth Sample.PAT])).
  eexists _, _, _, _. vm_compute.
  do 2 apply list_elem_of_further. apply list_elem_of_here.
Defined.

Lemma New_dial_arguments_witness :
  () = () ∧ "example.com:443" = Host Sample.endpoint
  ∧ ∃ tc source,
      EvTransportCredentials "example.com" true (tc, None)
        ∈ calls (exec Sample.env
                   (New () Sample.endpoint [WithGRPCDialOptions [Sample.A; Sample.B]]) [])
      ∧ take 2 [ WithTransportCredentials Sample.exampleCreds;
                 WithPerRPCCredentials {| tls := true; tokenSource := None |};
                 Sample.A; Sample.B ]
        = [ WithTransportCredentials tc;
            WithPerRPCCredentials {| tls := true; tokenSource := source |} ]
      ∧ drop 2 [ WithTransportCredentials Sample.exampleCreds;
                 WithPerRPCCredentials {| tls := true; tokenSource := None |};
                 Sample.A; Sample.B ]
        = grpcDialOptions (applyOptions [WithGRPCDialOptions [Sample.A; Sample.B]]).
Proof.
  apply (New_dial_arguments Sample.env [] () Sample.endpoint
           [WithGRPCDialOptions [Sample.A; Sample.B]] () "example.com:443"
           [ WithTransportCredentials Sample.exampleCreds;
             WithPerRPCCredentials {| tls := true; tokenSource := None |};
             Sample.A; Sample.B ]
           (Some 7, None)).
  vm_compute. apply list_elem_of_further, list_elem_of_here.
Defined.

Lemma New_WithAuth_nil_witness :
  let o := exec Sample.env
             (New () Sample.endpoint ([WithAuth Sample.PAT] ++ [WithAuth None])) [] in
  List.filter isInitializer (calls o) = []
  ∧ ∀ ctx' target dialOptions r,
      EvDialContext ctx' target dialOptions r ∈ calls o →
      dialOptions !! 1
      = Some (WithPerRPCCredentials {| tls := true; tokenSource := None |}).
Proof.
  apply (New_WithAuth_nil Sample.env [] () Sample.endpoint [WithAuth Sample.PAT]).
Defined.

End Examples.
